(** * run_coverage.py: the coverage pipeline of wtree3

    A shallow embedding of [src/run_coverage.py].  The script only talks to
    its surroundings (console, filesystem, child processes), so the model
    makes these explicit:

    - the filesystem is a finite map from paths to nodes;
    - every external program is an oracle of the environment that, given
      the moment of the call, the command line, the working directory and
      the filesystem, either exits with a return code (having changed the
      filesystem as it pleased) or cannot be started;
    - a computation threads the world, may raise a Python exception, and
      emits the list of things it did (lines printed, directories created,
      processes started with their return code, directory searches with
      what they found).

    Writing to the console always succeeds, and the system shell can
    always be started.  Names are sequences of 8-bit characters; where
    case is ignored, it is the case of the ASCII letters.  Symbolic links, file permissions other than
    directory writability and signals are outside the model. *)

From Stdlib Require Import ZArith Ascii String List.
From stdpp Require Import base decidable countable list strings gmap pretty.

Open Scope string_scope.
Open Scope Z_scope.

(** ** Strings *)

(** The line feed written as an escape in the Python literals. *)
Definition nl : string := String "010" "".

(** Python's [s * n] on strings. *)
Fixpoint str_mul (s : string) (n : nat) : string :=
  match n with
  | O => ""
  | S n' => s ++ str_mul s n'
  end.

(** ['='*60] *)
Definition rule : string := str_mul "=" 60.

(** Shell-style matching as [fnmatch] does it for patterns made of
    literal characters, [*] and [?]. *)
Fixpoint wildcard (pat name : list ascii) : bool :=
  match pat with
  | [] => match name with [] => true | _ => false end
  | c :: pat' =>
      if Ascii.eqb c "*" then
        (fix skip (l : list ascii) : bool :=
           wildcard pat' l ||
           match l with
           | [] => false
           | _ :: l' => skip l'
           end) name
      else
        match name with
        | [] => false
        | d :: name' => (Ascii.eqb c "?" || Ascii.eqb c d) && wildcard pat' name'
        end
  end.

(** The lower-case form of an ASCII letter; every other character is
    left as it is. *)
Definition lower (c : ascii) : ascii :=
  let n := nat_of_ascii c in
  if (65 <=? n)%nat && (n <=? 90)%nat then ascii_of_nat (n + 32) else c.

Definition str_lower (s : string) : string :=
  string_of_list_ascii (map lower (list_ascii_of_string s)).

(** Matching of one name against a pattern as pathlib does it: as
    written on POSIX, ignoring the case of letters on Windows
    ([caseless]). *)
Definition fnmatch (caseless : bool) (name pat : string) : bool :=
  if caseless
  then wildcard (map lower (list_ascii_of_string pat))
                (map lower (list_ascii_of_string name))
  else wildcard (list_ascii_of_string pat) (list_ascii_of_string name).

(** ** Paths (pathlib) *)

(** A parsed path: [root] is the anchor (empty for a relative path, ["/"]
    or a drive such as ["C:\"] otherwise) and [parts] the components
    below it. *)
Record Path := mkPath { root : string; parts : list string }.

#[global] Instance Path_eq_dec : EqDecision Path.
Proof. solve_decision. Defined.

#[global] Instance Path_countable : Countable Path :=
  inj_countable' (fun p => (root p, parts p)) (fun rp => mkPath rp.1 rp.2)
    (fun p => match p with mkPath _ _ => eq_refl end).

Definition is_absolute (p : Path) : bool := negb (String.eqb (root p) "").

(** [p.parent]: the path without its last component; a path without
    components is its own parent. *)
Definition parent (p : Path) : Path := mkPath (root p) (removelast (parts p)).

(** [p.name]: the last component, empty when there is none. *)
Definition name (p : Path) : string := List.last (parts p) "".

(** [p / q]: an absolute right operand replaces the left one. *)
Definition joinpath (p q : Path) : Path :=
  if is_absolute q then q else mkPath (root p) (parts p ++ parts q)%list.

(** A one-component relative path, as a string literal without separator
    parses. *)
Definition segment (s : string) : Path := mkPath "" [s].

Notation "p // s" := (joinpath p (segment s)) (at level 40, left associativity).

(** [p.absolute()] with the process's working directory [cwd]: no
    normalisation, [..] is kept. *)
Definition absolute (cwd p : Path) : Path :=
  if is_absolute p then p else joinpath cwd p.

(** [str(p)] with the separator of the platform. *)
Definition str (sep : string) (p : Path) : string :=
  match parts p with
  | [] => if is_absolute p then root p else "."
  | _ => root p ++ String.concat sep (parts p)
  end.

(** ** The filesystem *)

(** An entry is a regular file or a directory; entries are found under
    the path as the script writes it. *)
Inductive node := File | Dir (writable : bool).

#[global] Instance node_eq_dec : EqDecision node.
Proof. solve_decision. Defined.

Abbreviation FS := (gmap Path node).

Definition is_dir (fs : FS) (p : Path) : bool :=
  match fs !! p with
  | Some (Dir _) => true
  | _ => false
  end.

(** The exceptions of the [OSError] family the model can raise. *)
Inductive exn :=
| FileNotFoundError
| FileExistsError
| NotADirectoryError
| PermissionError
| OSError.

#[global] Instance exn_eq_dec : EqDecision exn.
Proof. solve_decision. Defined.

(** [os.mkdir(p)]: the entry must be new and its parent a writable
    directory. *)
Definition os_mkdir (fs : FS) (p : Path) : exn + FS :=
  match fs !! p with
  | Some _ => inl FileExistsError
  | None =>
      match fs !! parent p with
      | None => inl FileNotFoundError
      | Some File => inl NotADirectoryError
      | Some (Dir false) => inl PermissionError
      | Some (Dir true) => inr (<[p := Dir true]> fs)
      end
  end.

(** [q] relative to [d]: the components of [q] below [d], if [q] lies
    under [d]. *)
Fixpoint strip_prefix (l k : list string) : option (list string) :=
  match l, k with
  | [], _ => Some k
  | x :: l', y :: k' => if String.eqb x y then strip_prefix l' k' else None
  | _ :: _, [] => None
  end.

Definition relative_to (d q : Path) : option (list string) :=
  if String.eqb (root d) (root q) then strip_prefix (parts d) (parts q) else None.

(** Whether a recursive walk from directory [d] reaches the entry [rel]
    below it: every directory on the way has to be there.  [d] itself is
    not an entry of the walk. *)
Fixpoint reaches (fs : FS) (d : Path) (rel : list string) : bool :=
  match rel with
  | [] => false
  | s :: rel' =>
      is_dir fs d &&
      match rel' with
      | [] => true
      | _ :: _ => reaches fs (d // s) rel'
      end
  end.

(** [list(d.rglob(pat))]: the entries (files and directories) below [d]
    whose name matches [pat]. *)
Definition rglob_list (caseless : bool) (fs : FS) (d : Path) (pat : string)
  : list Path :=
  List.filter
    (fun q => match relative_to d q with
              | Some rel =>
                  reaches fs d rel && fnmatch caseless (name q) pat
              | None => false
              end)
    (map fst (map_to_list fs)).

(** ** Worlds, events and computations *)

(** What a child process does: it exits with a return code, leaving the
    filesystem as [after], or it cannot be started and [subprocess.run]
    raises. *)
Inductive proc_outcome :=
| Exited (returncode : Z) (after : FS)
| NotLaunched (e : exn).

(** The surroundings of one launch of the script. *)
Record Env := {
  script_file : Path;     (* __file__ *)
  getcwd : Path;          (* os.getcwd(), an absolute path *)
  sep : string;           (* os.sep *)
  executable : string;    (* sys.executable *)
  platform : string;      (* sys.platform *)
  (* a program started directly: moment, argv, cwd, filesystem *)
  spawn : nat -> list string -> option Path -> FS -> proc_outcome;
  (* a command line handed to the system shell, which is always there:
     what fails shows in the shell's return code *)
  shell : nat -> list string -> option Path -> FS -> Z * FS
}.

(** The mutable surroundings: the filesystem and the number of child
    processes started so far (the moment the oracles are asked about). *)
Record World := { fs : FS; clock : nat }.

Inductive event :=
| EPrint (line : string)
| EMkdir (p : Path)
| ERun (cmd : list string) (cwd : option Path) (sh : bool) (rc : option Z)
| ERglob (d : Path) (pat : string) (found : list Path).

#[global] Instance event_eq_dec : EqDecision event.
Proof. solve_decision. Defined.

Inductive res (A : Type) :=
| Ok (a : A)
| Raised (e : exn).
Arguments Ok {A} a.
Arguments Raised {A} e.

(** A computation: from a world to a result or an exception, the world
    it leaves and the events it emitted, oldest first. *)
Definition M (A : Type) : Type := World -> res A * World * list event.

#[global] Instance M_ret : MRet M := fun A a w => (Ok a, w, []).

#[global] Instance M_bind : MBind M := fun A B f m w =>
  match m w with
  | (Ok a, w1, t1) =>
      match f a w1 with
      | (r, w2, t2) => (r, w2, (t1 ++ t2)%list)
      end
  | (Raised e, w1, t1) => (Raised e, w1, t1)
  end.

Definition result {A} (m : M A) (w : World) : res A := (m w).1.1.
Definition final {A} (m : M A) (w : World) : World := (m w).1.2.
Definition trace {A} (m : M A) (w : World) : list event := (m w).2.

(** ** The primitives the script uses *)

Definition print (line : string) : M unit :=
  fun w => (Ok tt, w, [EPrint line]).

(** [Path.mkdir(exist_ok=...)] with [parents=False]: a missing parent is
    always an error; any other failure of [os.mkdir] is forgiven exactly
    when [exist_ok] is set and the path is a directory. *)
Definition mkdir (p : Path) (exist_ok : bool) : M unit := fun w =>
  match os_mkdir (fs w) p with
  | inr fs' => (Ok tt, {| fs := fs'; clock := clock w |}, [EMkdir p])
  | inl FileNotFoundError => (Raised FileNotFoundError, w, [EMkdir p])
  | inl e =>
      if negb exist_ok || negb (is_dir (fs w) p)
      then (Raised e, w, [EMkdir p])
      else (Ok tt, w, [EMkdir p])
  end.

(** [subprocess.run(cmd, cwd=cwd).returncode] without [check]: the
    return code is handed back whatever it is; a working directory that
    is not a directory and a program that cannot be started raise. *)
Definition subprocess_run (env : Env) (cmd : list string) (cwd : option Path)
  : M Z := fun w =>
  let tick := {| fs := fs w; clock := S (clock w) |} in
  let missing :=
    match cwd with
    | Some d =>
        match fs w !! d with
        | Some (Dir _) => None
        | Some File => Some NotADirectoryError
        | None => Some FileNotFoundError
        end
    | None => None
    end in
  match missing with
  | Some e => (Raised e, tick, [ERun cmd cwd false None])
  | None =>
      match spawn env (clock w) cmd cwd (fs w) with
      | Exited rc fs' =>
          (Ok rc, {| fs := fs'; clock := S (clock w) |},
           [ERun cmd cwd false (Some rc)])
      | NotLaunched e => (Raised e, tick, [ERun cmd cwd false None])
      end
  end.

(** [subprocess.run(cmd, shell=True)]. *)
Definition subprocess_run_shell (env : Env) (cmd : list string) : M Z :=
  fun w =>
  match shell env (clock w) cmd None (fs w) with
  | (rc, fs') =>
      (Ok rc, {| fs := fs'; clock := S (clock w) |},
       [ERun cmd None true (Some rc)])
  end.

(** [list(d.rglob(pat))] *)
Definition rglob (caseless : bool) (d : Path) (pat : string)
  : M (list Path) := fun w =>
  let found := rglob_list caseless (fs w) d pat in
  (Ok found, w, [ERglob d pat found]).

(** ** run_command (lines 12-22) *)

Definition run_command (env : Env) (cmd : list string) (cwd : option Path)
  : M bool :=
  print (nl ++ rule);;
  print ("Running: " ++ String.concat " " cmd);;
  print rule;;
  returncode ← subprocess_run env cmd cwd;
  if negb (returncode =? 0) then
    print ("ERROR: Command failed with code " ++ pretty returncode);;
    mret false
  else
    mret true.

(** ** main (lines 24-94) *)

(** Line 26: [Path(__file__).parent.absolute()] *)
Definition project_root (env : Env) : Path :=
  absolute (getcwd env) (parent (script_file env)).

(** Line 27 *)
Definition build_dir (env : Env) : Path := project_root env // "build".

(** Line 68 *)
Definition output_file (env : Env) : Path := build_dir env // "coverage.html".

(** Lines 38-43 *)
Definition configure_cmd : list string :=
  ["cmake"; "-G"; "MinGW Makefiles"; "-DENABLE_COVERAGE=ON"; ".."].

(** Line 48 *)
Definition build_cmd : list string := ["cmake"; "--build"; "."].

(** Line 53 *)
Definition test_cmd : list string := ["ctest"; "--verbose"].

(** Line 60 *)
Definition gcda_pattern : string := "*.gcda".

(** Whether the paths of the script are Windows paths, whose names are
    matched without regard to case: on the platform the script calls
    win32. *)
Definition caseless (env : Env) : bool := String.eqb (platform env) "win32".

(** Lines 69-80 *)
Definition gcovr_cmd (env : Env) : list string :=
  [executable env; "-m"; "gcovr";
   "--root"; str (sep env) (project_root env);
   "--exclude"; ".*external/.*";
   "--exclude"; ".*tests/.*";
   "--exclude"; ".*build.*/.*";
   "--exclude"; ".*_deps/.*";
   "--gcov-ignore-parse-errors"; "negative_hits.warn";
   "--html"; "--html-details";
   "-o"; str (sep env) (output_file env);
   str (sep env) (build_dir env)].

(** Line 92 *)
Definition start_cmd (env : Env) : list string :=
  ["start"; str (sep env) (output_file env)].

(** Lines 29-34: the two paths are announced and Step 1 creates the
    build directory. *)
Definition main_prologue (env : Env) : M unit :=
  let project_root := project_root env in
  let build_dir := build_dir env in
  print ("Project root: " ++ str (sep env) project_root);;
  print ("Build directory: " ++ str (sep env) build_dir);;
  (* Step 1: Create build directory *)
  print (nl ++ "[1/5] Creating build directory...");;
  mkdir build_dir true.

(** Lines 36-94: Steps 2 to 5, the external commands. *)
Definition main_commands (env : Env) : M Z :=
  let project_root := project_root env in
  let build_dir := build_dir env in
  (* Step 2: Configure with CMake *)
  print (nl ++ "[2/5] Configuring with CMake...");;
  configured ← run_command env configure_cmd (Some build_dir);
  if negb configured then mret 1 else
  (* Step 3: Build *)
  print (nl ++ "[3/5] Building...");;
  built ← run_command env build_cmd (Some build_dir);
  if negb built then mret 1 else
  (* Step 4: Run tests *)
  print (nl ++ "[4/5] Running tests...");;
  tested ← run_command env test_cmd (Some build_dir);
  (if negb tested
   then print "WARNING: Some tests failed, but continuing with coverage..."
   else mret tt);;
  (* Step 5: Generate coverage *)
  print (nl ++ "[5/5] Generating coverage report...");;
  gcda_files ← rglob (caseless env) build_dir gcda_pattern;
  print ("Found " ++ pretty (length gcda_files) ++ " coverage data files");;
  match gcda_files with
  | [] =>
      print "ERROR: No coverage data found. Make sure tests ran successfully.";;
      mret 1
  | _ :: _ =>
      let output_file := output_file env in
      reported ← run_command env (gcovr_cmd env) (Some project_root);
      if negb reported then mret 1 else
      print (nl ++ rule);;
      print "SUCCESS! Coverage report generated:";;
      print ("  " ++ str (sep env) output_file);;
      print (nl ++ "To view in browser, run:");;
      print ("  start " ++ str (sep env) output_file);;
      print rule;;
      (if String.eqb (platform env) "win32"
       then _ ← subprocess_run_shell env (start_cmd env); mret tt
       else mret tt);;
      mret 0
  end.

(** Lines 24-94: [main] is the prologue followed by the commands. *)
Definition main (env : Env) : M Z :=
  main_prologue env;; main_commands env.

(** ** Reading a run *)

(** The three lines printed before the child starts (lines 14-16). *)
Definition banner (cmd : list string) : list event :=
  [EPrint (nl ++ rule); EPrint ("Running: " ++ String.concat " " cmd);
   EPrint rule].

(** The world after a child process was started and changed nothing. *)
Definition tick (w : World) : World := {| fs := fs w; clock := S (clock w) |}.

(** Whether [subprocess.run] finds its working directory. *)
Definition cwd_ok (d : FS) (cwd : option Path) : bool :=
  match cwd with
  | Some p => is_dir d p
  | None => true
  end.

(** The three ways a call of [run_command] can end. *)
Inductive ran (env : Env) (cmd : list string) (cwd : option Path) (w : World)
  : res bool * World * list event -> Prop :=
| ran_raised e :
    ran env cmd cwd w
      (Raised e, tick w, (banner cmd ++ [ERun cmd cwd false None])%list)
| ran_true after :
    spawn env (clock w) cmd cwd (fs w) = Exited 0 after ->
    ran env cmd cwd w
      (Ok true, {| fs := after; clock := S (clock w) |},
       (banner cmd ++ [ERun cmd cwd false (Some 0)])%list)
| ran_false rc after :
    rc <> 0 ->
    spawn env (clock w) cmd cwd (fs w) = Exited rc after ->
    ran env cmd cwd w
      (Ok false, {| fs := after; clock := S (clock w) |},
       (banner cmd ++
        [ERun cmd cwd false (Some rc);
         EPrint ("ERROR: Command failed with code " ++ pretty rc)])%list).

(** The two ways [mkdir(exist_ok=True)] can end. *)
Inductive made (p : Path) (w : World) : res unit * World * list event -> Prop :=
| made_ok after :
    is_dir after p = true ->
    made p w (Ok tt, {| fs := after; clock := clock w |}, [EMkdir p])
| made_raised e :
    made p w (Raised e, w, [EMkdir p]).

(** A command was started (or its start attempted) during the run. *)
Definition invoked (cmd : list string) (tr : list event) : Prop :=
  exists cwd sh rc, ERun cmd cwd sh rc ∈ tr.

(** A command line of the report generator: the interpreter running the
    gcovr module. *)
Definition is_report (env : Env) (cmd : list string) : Prop :=
  exists rest, cmd = executable env :: "-m" :: "gcovr" :: rest.

(** The command line passes option [opt] with value [val]. *)
Definition passes (cmd : list string) (opt val : string) : Prop :=
  exists before after, cmd = (before ++ opt :: val :: after)%list.

(** The kinds of events a run is asked about. *)
Definition is_run (e : event) : bool :=
  match e with ERun _ _ _ _ => true | _ => false end.

Definition is_rglob (e : event) : bool :=
  match e with ERglob _ _ _ => true | _ => false end.

(** The directory an event works in or on. *)
Definition event_dir (e : event) : option Path :=
  match e with
  | EPrint _ => None
  | EMkdir p => Some p
  | ERun _ cwd _ _ => cwd
  | ERglob d _ _ => Some d
  end.

Definition has_dir (e : event) : bool :=
  match event_dir e with Some _ => true | None => false end.

(** Lexical resolution of [..] components (no symbolic links): the
    location a path names. *)
Definition resolve_step (acc : list string) (s : string) : list string :=
  if String.eqb s ".." then removelast acc else (acc ++ [s])%list.

Definition resolve (p : Path) : Path :=
  mkPath (root p) (fold_left resolve_step (parts p) []).

(** The same machine, except that the test step exits with [code]
    whenever it exits at all; what it does to the filesystem is kept. *)
Definition retest (code : Z) (env : Env) : Env :=
  {| script_file := script_file env;
     getcwd := getcwd env;
     sep := sep env;
     executable := executable env;
     platform := platform env;
     spawn := fun i cmd cwd d =>
       match spawn env i cmd cwd d with
       | Exited rc after =>
           Exited (if bool_decide (cmd = test_cmd) then code else rc) after
       | NotLaunched e => NotLaunched e
       end;
     shell := shell env |}.

(** ** Sample machines *)

Module Sample.

Definition root_dir : Path := mkPath "/" ["home"; "dev"; "wtree3"].
Definition script : Path := root_dir // "run_coverage.py".
Definition bdir : Path := root_dir // "build".

Definition disk : FS :=
  list_to_map [(mkPath "/" [], Dir true);
               (mkPath "/" ["home"], Dir true);
               (mkPath "/" ["home"; "dev"], Dir true);
               (root_dir, Dir true);
               (script, File)].

(** The same disk with a regular file where the build directory goes. *)
Definition blocked_disk : FS := <[bdir := File]> disk.

(** Tools that exit with [code cmd]; the test run leaves one
    coverage-data file when [emit] is set. *)
Definition tools (code : list string -> Z) (emit : bool)
  (i : nat) (cmd : list string) (cwd : option Path) (d : FS) : proc_outcome :=
  Exited (code cmd)
    (if emit && bool_decide (cmd = test_cmd)
     then <[bdir // "tests" // "wtree3.gcda" := File]>
            (<[bdir // "tests" := Dir true]> d)
     else d).

(** A machine without cmake: the program cannot be started. *)
Definition no_cmake (i : nat) (cmd : list string) (cwd : option Path) (d : FS)
  : proc_outcome :=
  match cmd with
  | "cmake" :: _ => NotLaunched FileNotFoundError
  | _ => Exited 0 d
  end.

Definition sh (rc : Z) (i : nat) (cmd : list string) (cwd : option Path)
  (d : FS) : Z * FS := (rc, d).

Definition machine (plat : string) (oracle : nat -> list string -> option Path -> FS -> proc_outcome) (viewer : Z) : Env :=
  {| script_file := script; getcwd := mkPath "/" ["tmp"]; sep := "/";
     executable := "/usr/bin/python3"; platform := plat;
     spawn := oracle; shell := sh viewer |}.

Definition all_fine (cmd : list string) : Z := 0.

Definition fails (bad : list string) (rc : Z) (cmd : list string) : Z :=
  if bool_decide (cmd = bad) then rc else 0.

Definition linux : Env := machine "linux" (tools all_fine true) 0.
Definition windows : Env := machine "win32" (tools all_fine true) 1.
Definition bad_configure : Env :=
  machine "linux" (tools (fails configure_cmd 1) true) 0.
Definition bad_build : Env :=
  machine "linux" (tools (fails build_cmd 2) true) 0.
Definition bad_tests : Env :=
  machine "linux" (tools (fails test_cmd 8) true) 0.
Definition no_data : Env := machine "linux" (tools all_fine false) 0.
Definition bare : Env := machine "linux" no_cmake 0.

(** The script started by a relative path from a subdirectory, as an
    interpreter that leaves [__file__] as typed would have it. *)
Definition relative : Env :=
  {| script_file := mkPath "" [".."; "run_coverage.py"];
     getcwd := root_dir // "src"; sep := "/";
     executable := "/usr/bin/python3"; platform := "linux";
     spawn := tools all_fine true; shell := sh 0 |}.

Definition w0 : World := {| fs := disk; clock := 0 |}.
Definition blocked : World := {| fs := blocked_disk; clock := 0 |}.

End Sample.

(** ** More sample machines *)

Module Cases.

(** The report generator fails. *)
Definition bad_report : Env :=
  Sample.machine "linux"
    (Sample.tools (Sample.fails (gcovr_cmd Sample.linux) 3) true) 0.

(** The test run leaves a coverage-data file, an object file and a
    directory whose name matches the pattern. *)
Definition busy_tools (i : nat) (cmd : list string) (cwd : option Path)
  (d : FS) : proc_outcome :=
  Exited 0
    (if bool_decide (cmd = test_cmd)
     then <[Sample.bdir // "a.gcda" := File]>
            (<[Sample.bdir // "a.gcno" := File]>
               (<[Sample.bdir // "old.gcda" := Dir true]> d))
     else d).

Definition busy : Env := Sample.machine "linux" busy_tools 0.

(** The build directory is there already. *)
Definition built_disk : FS := <[Sample.bdir := Dir true]> Sample.disk.
Definition built : World := {| fs := built_disk; clock := 0 |}.

(** The test run leaves a coverage-data file with an upper-case name. *)
Definition upper_tools (i : nat) (cmd : list string) (cwd : option Path)
  (d : FS) : proc_outcome :=
  Exited 0
    (if bool_decide (cmd = test_cmd)
     then <[Sample.bdir // "X.GCDA" := File]> d
     else d).

Definition windows_upper : Env := Sample.machine "win32" upper_tools 0.
Definition linux_upper : Env := Sample.machine "linux" upper_tools 0.

End Cases.

(** ** Further readings of a run *)

(** The events that act on the surroundings: everything but a printed
    line. *)
Definition is_action (e : event) : bool :=
  match e with EPrint _ => false | _ => true end.

(** An event without what came back from it. *)
Definition shape (e : event) : event :=
  match e with
  | ERun cmd cwd sh _ => ERun cmd cwd sh None
  | ERglob d pat _ => ERglob d pat []
  | EPrint _ | EMkdir _ => e
  end.

(** The actions of [main] in the order of the source (lines 34, 38, 48,
    53, 60, 69 and 92). *)
Definition plan (env : Env) : list event :=
  [EMkdir (build_dir env);
   ERun configure_cmd (Some (build_dir env)) false None;
   ERun build_cmd (Some (build_dir env)) false None;
   ERun test_cmd (Some (build_dir env)) false None;
   ERglob (build_dir env) gcda_pattern [];
   ERun (gcovr_cmd env) (Some (project_root env)) false None;
   ERun (start_cmd env) None true None].

(** A printed line that begins with the character [c]. *)
Definition line_starts (c : ascii) (e : event) : bool :=
  match e with
  | EPrint (String c' _) => Ascii.eqb c c'
  | _ => false
  end.

(** Lines 96-97, [sys.exit(main())]: the status of the process is the
    value of [main]; an exception nobody catches ends the interpreter
    with status 1. *)
Definition script (env : Env) (w : World) : Z :=
  match result (main env) w with
  | Ok code => code
  | Raised _ => 1
  end.

(** Tools that leave the filesystem as they find it. *)
Definition inert (env : Env) : Prop :=
  (forall i cmd cwd d rc d', spawn env i cmd cwd d = Exited rc d' -> d' = d) /\
  (forall i cmd cwd d, (shell env i cmd cwd d).2 = d).

(** A computation that leaves the filesystem as it finds it. *)
Definition keeps_fs {A} (m : M A) : Prop :=
  forall w, fs (final m w) = fs w.

(** ** How the primitives end *)

Lemma run_command_ran env cmd cwd w :
  ran env cmd cwd w (run_command env cmd cwd w).
Proof.
  unfold run_command.
  cbv beta iota zeta delta [mbind M_bind mret M_ret print subprocess_run].
  destruct cwd as [d|].
  - destruct (fs w !! d) as [[|wr]|]; try apply ran_raised.
    destruct (spawn env (clock w) cmd (Some d) (fs w)) as [rc after|e] eqn:Hs;
      try apply ran_raised.
    destruct (Z.eqb_spec rc 0) as [->|Hrc]; cbn [negb].
    + by apply ran_true.
    + by apply ran_false.
  - destruct (spawn env (clock w) cmd None (fs w)) as [rc after|e] eqn:Hs;
      try apply ran_raised.
    destruct (Z.eqb_spec rc 0) as [->|Hrc]; cbn [negb].
    + by apply ran_true.
    + by apply ran_false.
Qed.

Lemma mkdir_made p w : made p w (mkdir p true w).
Proof.
  unfold mkdir, os_mkdir.
  destruct (fs w !! p) as [n|] eqn:Hp.
  - cbn [negb orb]. unfold is_dir. rewrite Hp.
    destruct n as [|wr]; cbn [negb]; try apply made_raised.
    destruct w as [d c]. cbn [fs] in Hp.
    refine (made_ok p {| fs := d; clock := c |} d _).
    unfold is_dir. by rewrite Hp.
  - assert (Hnd : is_dir (fs w) p = false) by (unfold is_dir; by rewrite Hp).
    destruct (fs w !! parent p) as [[|[|]]|]; rewrite ?Hnd;
      cbn [negb orb]; try apply made_raised.
    apply made_ok. unfold is_dir. by rewrite lookup_insert_eq.
Qed.

(** ** Case analysis of a run *)

(** One step of a run whose equation is [H]: the next primitive is
    replaced by one of the ways it can end. *)
Ltac run_step H :=
  match type of H with
  | context [mkdir ?p true ?w] =>
      destruct (mkdir_made p w) as [? ?|?]
  | context [run_command ?e ?c ?d ?w] =>
      destruct (run_command_ran e c d w) as [?|? ?|? ? ? ?]
  | context [rglob_list ?c ?f ?d ?p] =>
      destruct (rglob_list c f d p) eqn:?
  | context [String.eqb (platform ?e) "win32"] =>
      destruct (String.eqb (platform e) "win32") eqn:?
  | context [shell ?e ?c ?cmd ?d ?f] =>
      destruct (shell e c cmd d f) as [? ?] eqn:?
  end;
  cbv beta iota zeta delta [negb app banner] in H.

(** All the runs of [main env] from [w]: result, final world and trace
    become explicit in every case. *)
Ltac run_cases env w :=
  let Hrun := fresh "Hrun" in
  unfold result, final, trace in *;
  destruct (main env w) as [[? ?] ?] eqn:Hrun;
  cbn [fst snd] in *;
  unfold main, main_prologue, main_commands in Hrun;
  cbv beta iota zeta
    delta [mbind M_bind mret M_ret print rglob subprocess_run_shell] in Hrun;
  repeat run_step Hrun;
  injection Hrun as <- <- <-.

Ltac unfold_cmds H :=
  unfold configure_cmd, build_cmd, test_cmd, gcovr_cmd, start_cmd in H.

Lemma elem_of_kind (k : event -> bool) (e : event) (tr : list event) :
  e ∈ tr -> k e = true -> e ∈ List.filter k tr.
Proof.
  intros Hin Hk. apply list_elem_of_In, filter_In. split; [|done].
  by apply list_elem_of_In.
Qed.

(** Membership [H] of a process or search event in an explicit trace,
    split into the events of its kind it can be; the events that cannot
    be it are dropped. *)
Ltac inv_elem H :=
  first [ apply (elem_of_kind is_run) in H; [|reflexivity]
        | apply (elem_of_kind is_rglob) in H; [|reflexivity]
        | idtac ];
  cbv beta iota delta [List.filter is_run is_rglob] in H;
  repeat first
    [ apply elem_of_nil in H; destruct H
    | apply elem_of_cons in H; destruct H as [H|H];
      [try (exfalso; unfold_cmds H; by simplify_eq)|] ].

Ltac not_invoked :=
  let H := fresh "Hin" in
  intros (? & ? & ? & H); inv_elem H.

(** An event is in an explicit trace. *)
Ltac in_trace := repeat first [ by apply list_elem_of_here | apply list_elem_of_further ].

(** ** The fatal steps: configure and build *)

(** C1: in every run, a configure step that returns a non-zero code makes
    main return 1 with the build command never started, and a build step
    that returns a non-zero code makes main return 1 with the test
    command never started. *)
Theorem configure_or_build_failure_aborts
  (env : Env) (w : World) (cwd : option Path) (sh : bool) (rc : Z) :
  rc <> 0 ->
  (ERun configure_cmd cwd sh (Some rc) ∈ trace (main env) w ->
   result (main env) w = Ok 1 /\ ~ invoked build_cmd (trace (main env) w)) /\
  (ERun build_cmd cwd sh (Some rc) ∈ trace (main env) w ->
   result (main env) w = Ok 1 /\ ~ invoked test_cmd (trace (main env) w)).
Proof.
  intros Hrc. split; intros Hev.
  - run_cases env w; inv_elem Hev; (split; [done | not_invoked]).
  - run_cases env w; inv_elem Hev; (split; [done | not_invoked]).
Qed.

Lemma configure_or_build_failure_aborts_witness :
  (result (main Sample.bad_configure) Sample.w0 = Ok 1 /\
   ~ invoked build_cmd (trace (main Sample.bad_configure) Sample.w0)) /\
  (result (main Sample.bad_build) Sample.w0 = Ok 1 /\
   ~ invoked test_cmd (trace (main Sample.bad_build) Sample.w0)).
Proof.
  split.
  - apply (configure_or_build_failure_aborts Sample.bad_configure Sample.w0
             (Some Sample.bdir) false 1); [lia|].
    vm_compute. in_trace.
  - apply (configure_or_build_failure_aborts Sample.bad_build Sample.w0
             (Some Sample.bdir) false 2); [lia|].
    vm_compute. in_trace.
Defined.

(** ** The tolerated step: tests *)

(** C2: in every run in which the test step returns a non-zero code, the
    warning is printed, the build directory is searched for
    coverage-data files, the report generator is started when the search
    found some, and a return of 1 is due to an empty search or to a
    report generator that failed, never to the tests alone. *)
Theorem test_failure_is_tolerated
  (env : Env) (w : World) (cwd : option Path) (sh : bool) (rc : Z) :
  rc <> 0 ->
  ERun test_cmd cwd sh (Some rc) ∈ trace (main env) w ->
  EPrint "WARNING: Some tests failed, but continuing with coverage..."
    ∈ trace (main env) w /\
  exists found,
    ERglob (build_dir env) gcda_pattern found ∈ trace (main env) w /\
    (found <> [] -> invoked (gcovr_cmd env) (trace (main env) w)) /\
    (result (main env) w = Ok 1 ->
     found = [] \/
     exists rc', rc' <> 0 /\
       ERun (gcovr_cmd env) (Some (project_root env)) false (Some rc')
         ∈ trace (main env) w).
Proof.
  intros Hrc Hev.
  run_cases env w; inv_elem Hev.
  all: split; [in_trace|].
  all: eexists; split; [in_trace|].
  all: split;
    [ intros Hne; first [ done | eexists _, _, _; in_trace ]
    | intros Hres;
      first [ discriminate Hres
            | by left
            | right; eexists; split; [eassumption | in_trace] ] ].
Qed.

Lemma test_failure_is_tolerated_witness :
  EPrint "WARNING: Some tests failed, but continuing with coverage..."
    ∈ trace (main Sample.bad_tests) Sample.w0 /\
  exists found,
    ERglob (build_dir Sample.bad_tests) gcda_pattern found
      ∈ trace (main Sample.bad_tests) Sample.w0 /\
    (found <> [] ->
     invoked (gcovr_cmd Sample.bad_tests)
       (trace (main Sample.bad_tests) Sample.w0)) /\
    (result (main Sample.bad_tests) Sample.w0 = Ok 1 ->
     found = [] \/
     exists rc', rc' <> 0 /\
       ERun (gcovr_cmd Sample.bad_tests)
         (Some (project_root Sample.bad_tests)) false (Some rc')
         ∈ trace (main Sample.bad_tests) Sample.w0).
Proof.
  apply (test_failure_is_tolerated Sample.bad_tests Sample.w0
           (Some Sample.bdir) false 8); [lia|].
  vm_compute. in_trace.
Defined.

(** ** The search for coverage data *)

(** C3: in every run in which the search of the build directory finds
    nothing, main returns 1 and no report-generator command is
    started. *)
Theorem no_coverage_data_aborts (env : Env) (w : World) :
  ERglob (build_dir env) gcda_pattern [] ∈ trace (main env) w ->
  result (main env) w = Ok 1 /\
  forall cmd, is_report env cmd -> ~ invoked cmd (trace (main env) w).
Proof.
  intros Hev.
  run_cases env w; inv_elem Hev.
  all: split; [done|].
  all: intros cmd [rest ->]; not_invoked.
Qed.

Lemma no_coverage_data_aborts_witness :
  result (main Sample.no_data) Sample.w0 = Ok 1 /\
  forall cmd, is_report Sample.no_data cmd ->
    ~ invoked cmd (trace (main Sample.no_data) Sample.w0).
Proof.
  apply (no_coverage_data_aborts Sample.no_data Sample.w0).
  vm_compute. in_trace.
Defined.

(** ** The report *)

(** C4: in every run in which the search finds at least one
    coverage-data file and the report generator exits with code zero,
    main returns 0 and the path of the report,
    project_root/build/coverage.html, is printed. *)
Theorem report_success_returns_zero
  (env : Env) (w : World) (found : list Path) (cwd : option Path) (sh : bool) :
  found <> [] ->
  ERglob (build_dir env) gcda_pattern found ∈ trace (main env) w ->
  ERun (gcovr_cmd env) cwd sh (Some 0) ∈ trace (main env) w ->
  result (main env) w = Ok 0 /\
  EPrint ("  " ++ str (sep env) (output_file env)) ∈ trace (main env) w /\
  output_file env = project_root env // "build" // "coverage.html".
Proof.
  intros Hne Hglob Hev.
  run_cases env w; inv_elem Hev.
  all: split; [done|]; split; [in_trace | reflexivity].
Qed.

Lemma report_success_returns_zero_witness :
  result (main Sample.linux) Sample.w0 = Ok 0 /\
  EPrint ("  " ++ str (sep Sample.linux) (output_file Sample.linux))
    ∈ trace (main Sample.linux) Sample.w0 /\
  output_file Sample.linux
  = project_root Sample.linux // "build" // "coverage.html".
Proof.
  apply (report_success_returns_zero Sample.linux Sample.w0
           [Sample.bdir // "tests" // "wtree3.gcda"]
           (Some Sample.root_dir) false).
  - discriminate.
  - vm_compute. in_trace.
  - vm_compute. in_trace.
Defined.

Lemma gcovr_cmd_exclusions (env : Env) :
  passes (gcovr_cmd env) "--exclude" ".*external/.*" /\
  passes (gcovr_cmd env) "--exclude" ".*tests/.*" /\
  passes (gcovr_cmd env) "--exclude" ".*build.*/.*" /\
  passes (gcovr_cmd env) "--exclude" ".*_deps/.*".
Proof.
  unfold passes. repeat split.
  - by exists (take 5 (gcovr_cmd env)), (drop 7 (gcovr_cmd env)).
  - by exists (take 7 (gcovr_cmd env)), (drop 9 (gcovr_cmd env)).
  - by exists (take 9 (gcovr_cmd env)), (drop 11 (gcovr_cmd env)).
  - by exists (take 11 (gcovr_cmd env)), (drop 13 (gcovr_cmd env)).
Qed.

(** C7: in every run that reaches the report step (the search found a
    coverage-data file), the report generator is started, its command
    line passes the four exclusion patterns (external dependencies,
    tests, build outputs, dependency cache) whatever the filesystem
    holds, and no other report-generator command line occurs in the
    run. *)
Theorem report_command_has_exclusions
  (env : Env) (w : World) (found : list Path) :
  found <> [] ->
  ERglob (build_dir env) gcda_pattern found ∈ trace (main env) w ->
  (exists rc,
     ERun (gcovr_cmd env) (Some (project_root env)) false rc
       ∈ trace (main env) w) /\
  (passes (gcovr_cmd env) "--exclude" ".*external/.*" /\
   passes (gcovr_cmd env) "--exclude" ".*tests/.*" /\
   passes (gcovr_cmd env) "--exclude" ".*build.*/.*" /\
   passes (gcovr_cmd env) "--exclude" ".*_deps/.*") /\
  (forall cmd cwd sh rc,
     ERun cmd cwd sh rc ∈ trace (main env) w -> is_report env cmd ->
     cmd = gcovr_cmd env).
Proof.
  intros Hne Hev.
  run_cases env w; inv_elem Hev; try done.
  all: split; [eexists; in_trace|].
  all: split; [apply gcovr_cmd_exclusions|].
  all: intros ? ? ? ? Hin [? Hcmd]; inv_elem Hin.
  all: first [ congruence | exfalso; unfold_cmds Hin; by simplify_eq ].
Qed.

Lemma report_command_has_exclusions_witness :
  (exists rc,
     ERun (gcovr_cmd Sample.linux) (Some (project_root Sample.linux)) false rc
       ∈ trace (main Sample.linux) Sample.w0) /\
  (passes (gcovr_cmd Sample.linux) "--exclude" ".*external/.*" /\
   passes (gcovr_cmd Sample.linux) "--exclude" ".*tests/.*" /\
   passes (gcovr_cmd Sample.linux) "--exclude" ".*build.*/.*" /\
   passes (gcovr_cmd Sample.linux) "--exclude" ".*_deps/.*") /\
  (forall cmd cwd sh rc,
     ERun cmd cwd sh rc ∈ trace (main Sample.linux) Sample.w0 ->
     is_report Sample.linux cmd ->
     cmd = gcovr_cmd Sample.linux).
Proof.
  apply (report_command_has_exclusions Sample.linux Sample.w0
           [Sample.bdir // "tests" // "wtree3.gcda"]).
  - discriminate.
  - vm_compute. in_trace.
Defined.

(** ** The viewer *)

(** C8: in every run in which the report was generated, main returns 0;
    a command is handed to the shell only on win32 and it is the start
    command; on win32 the run ends with that command, whatever code it
    returns; on any other platform the run ends with the closing rule
    of the success message, nothing is started and nothing more is
    printed. *)
Theorem viewer_is_best_effort
  (env : Env) (w : World) (cwd : option Path) (sh : bool) :
  ERun (gcovr_cmd env) cwd sh (Some 0) ∈ trace (main env) w ->
  result (main env) w = Ok 0 /\
  (forall cmd cwd' rc,
     ERun cmd cwd' true rc ∈ trace (main env) w ->
     platform env = "win32" /\ cmd = start_cmd env) /\
  (platform env = "win32" ->
   exists rc,
     last (trace (main env) w)
     = Some (ERun (start_cmd env) None true (Some rc))) /\
  (platform env <> "win32" ->
   last (trace (main env) w) = Some (EPrint rule)).
Proof.
  intros Hev.
  run_cases env w; inv_elem Hev.
  all: match goal with
       | H : String.eqb _ _ = true |- _ => apply String.eqb_eq in H
       | H : String.eqb _ _ = false |- _ => apply String.eqb_neq in H
       end.
  all: split; [done|].
  all: split;
    [ intros ? ? ? Hin; inv_elem Hin;
      first [ by simplify_eq | exfalso; by simplify_eq ] |].
  all: split; [ intros Hp; first [ done | by eexists ]
              | intros Hp; first [ reflexivity | done ] ].
Qed.

Lemma viewer_is_best_effort_witness :
  (result (main Sample.windows) Sample.w0 = Ok 0 /\
   (forall cmd cwd' rc,
      ERun cmd cwd' true rc ∈ trace (main Sample.windows) Sample.w0 ->
      platform Sample.windows = "win32" /\ cmd = start_cmd Sample.windows) /\
   (platform Sample.windows = "win32" ->
    exists rc,
      last (trace (main Sample.windows) Sample.w0)
      = Some (ERun (start_cmd Sample.windows) None true (Some rc))) /\
   (platform Sample.windows <> "win32" ->
    last (trace (main Sample.windows) Sample.w0) = Some (EPrint rule))) /\
  last (trace (main Sample.windows) Sample.w0)
  = Some (ERun (start_cmd Sample.windows) None true (Some 1)).
Proof.
  split.
  - apply (viewer_is_best_effort Sample.windows Sample.w0
             (Some Sample.root_dir) false).
    vm_compute. in_trace.
  - vm_compute. reflexivity.
Defined.

(** ** run_command *)

(** C5, as amended: for every command and working directory, when the
    working directory (if one is given) is a directory and the child
    exits, run_command returns true exactly when the exit code is zero,
    prints the error message with the code when it is not, and does not
    raise; when the child cannot be started, or the working directory
    is missing, the exception of subprocess.run reaches the caller. *)
Theorem run_command_reports_exit_code
  (env : Env) (cmd : list string) (cwd : option Path) (w : World) :
  (forall rc after,
     cwd_ok (fs w) cwd = true ->
     spawn env (clock w) cmd cwd (fs w) = Exited rc after ->
     result (run_command env cmd cwd) w = Ok (rc =? 0) /\
     final (run_command env cmd cwd) w
     = {| fs := after; clock := S (clock w) |} /\
     trace (run_command env cmd cwd) w
     = (banner cmd ++ ERun cmd cwd false (Some rc) ::
          (if rc =? 0 then []
           else [EPrint ("ERROR: Command failed with code " ++ pretty rc)]))%list) /\
  (forall e,
     cwd_ok (fs w) cwd = true ->
     spawn env (clock w) cmd cwd (fs w) = NotLaunched e ->
     result (run_command env cmd cwd) w = Raised e) /\
  (cwd_ok (fs w) cwd = false ->
   exists e, result (run_command env cmd cwd) w = Raised e).
Proof.
  unfold result, final, trace, run_command, cwd_ok, is_dir.
  cbv beta iota zeta delta [mbind M_bind mret M_ret print subprocess_run].
  split; [|split].
  - intros rc after Hcwd Hs. rewrite Hs.
    destruct cwd as [d|]; [destruct (fs w !! d) as [[|wr]|]; try done|];
      by destruct (rc =? 0).
  - intros e Hcwd Hs. rewrite Hs.
    by destruct cwd as [d|]; [destruct (fs w !! d) as [[|wr]|]|].
  - intros Hcwd.
    destruct cwd as [d|]; [destruct (fs w !! d) as [[|wr]|]|];
      try done; by eexists.
Qed.

Lemma run_command_reports_exit_code_witness :
  (result (run_command Sample.bad_build build_cmd None) Sample.w0
   = Ok (2 =? 0) /\
   final (run_command Sample.bad_build build_cmd None) Sample.w0
   = {| fs := Sample.disk; clock := 1 |} /\
   trace (run_command Sample.bad_build build_cmd None) Sample.w0
   = (banner build_cmd ++ ERun build_cmd None false (Some 2) ::
        (if 2 =? 0 then []
         else [EPrint ("ERROR: Command failed with code " ++ pretty 2)]))%list) /\
  result (run_command Sample.bare build_cmd None) Sample.w0
  = Raised FileNotFoundError /\
  (exists e,
     result (run_command Sample.linux build_cmd (Some Sample.bdir)) Sample.w0
     = Raised e).
Proof.
  split; [|split].
  - apply (run_command_reports_exit_code Sample.bad_build build_cmd None
             Sample.w0); reflexivity.
  - apply (run_command_reports_exit_code Sample.bare build_cmd None
             Sample.w0); reflexivity.
  - apply (run_command_reports_exit_code Sample.linux build_cmd
             (Some Sample.bdir) Sample.w0).
    vm_compute. reflexivity.
Defined.

(** C5 as stated does not hold: on a machine without cmake the call
    raises instead of returning a boolean. *)
Lemma run_command_can_raise :
  result (run_command Sample.bare build_cmd None) Sample.w0
  = Raised FileNotFoundError /\
  ~ exists ok : bool,
      result (run_command Sample.bare build_cmd None) Sample.w0 = Ok ok.
Proof.
  split; [reflexivity|]. intros [ok Hok]. vm_compute in Hok. discriminate Hok.
Qed.

(** ** Step 1: the build directory *)

Lemma parent_segment (p : Path) (s : string) : parent (p // s) = p.
Proof.
  destruct p as [r ps]. unfold parent, joinpath, segment, is_absolute.
  cbn [root parts String.eqb negb]. by rewrite removelast_last.
Qed.

Lemma parent_build_dir (env : Env) : parent (build_dir env) = project_root env.
Proof. apply parent_segment. Qed.

Lemma prologue_trace (env : Env) (w : World) :
  trace (main_prologue env) w
  = [EPrint ("Project root: " ++ str (sep env) (project_root env));
     EPrint ("Build directory: " ++ str (sep env) (build_dir env));
     EPrint (nl ++ "[1/5] Creating build directory...");
     EMkdir (build_dir env)].
Proof.
  unfold trace, main_prologue.
  cbv beta iota zeta delta [mbind M_bind mret M_ret print].
  by destruct (mkdir_made (build_dir env) w).
Qed.

Lemma main_after_prologue (env : Env) (w : World) :
  result (main_prologue env) w = Ok tt ->
  result (main env) w
  = result (main_commands env) (final (main_prologue env) w) /\
  trace (main env) w
  = (trace (main_prologue env) w
     ++ trace (main_commands env) (final (main_prologue env) w))%list.
Proof.
  unfold result, final, trace, main.
  cbv beta iota zeta delta [mbind M_bind].
  destruct (main_prologue env w) as [[[[]|e] w1] t1]; cbn [fst snd]; [|done].
  intros _. by destruct (main_commands env w1) as [[r w2] t2].
Qed.

Lemma build_dir_created (env : Env) (w : World) :
  is_dir (fs w) (build_dir env) = true \/
  (fs w !! build_dir env = None /\
   fs w !! project_root env = Some (Dir true)) ->
  result (main_prologue env) w = Ok tt /\
  is_dir (fs (final (main_prologue env) w)) (build_dir env) = true /\
  cwd_ok (fs (final (main_prologue env) w)) (Some (build_dir env)) = true /\
  (forall cmd, ~ invoked cmd (trace (main_prologue env) w)) /\
  result (main env) w
  = result (main_commands env) (final (main_prologue env) w) /\
  trace (main env) w
  = (trace (main_prologue env) w
     ++ trace (main_commands env) (final (main_prologue env) w))%list /\
  (is_dir (fs w) (build_dir env) = true -> final (main_prologue env) w = w) /\
  result (main_prologue env) (final (main_prologue env) w) = Ok tt.
Proof.
  intros Hpre.
  assert (Hrun : exists d,
             is_dir d (build_dir env) = true /\
             (is_dir (fs w) (build_dir env) = true -> d = fs w) /\
             mkdir (build_dir env) true w
             = (Ok tt, {| fs := d; clock := clock w |},
                [EMkdir (build_dir env)])).
  { unfold mkdir, os_mkdir, is_dir in *.
    destruct Hpre as [Hdir|[Hnone Hroot]].
    - destruct (fs w !! build_dir env) as [[|wr]|] eqn:Hb; try done.
      exists (fs w). rewrite Hb. by destruct w.
    - rewrite Hnone, parent_build_dir, Hroot.
      exists (<[build_dir env := Dir true]> (fs w)).
      split; [by rewrite lookup_insert_eq|]. by split. }
  destruct Hrun as (d & Hd & Hsame & Hmk).
  assert (Hres : result (main_prologue env) w = Ok tt
                 /\ final (main_prologue env) w
                    = {| fs := d; clock := clock w |}).
  { unfold result, final, main_prologue.
    cbv beta iota zeta delta [mbind M_bind mret M_ret print].
    by rewrite Hmk. }
  destruct Hres as [Hres Hfin].
  destruct (main_after_prologue env w Hres) as [Hr Ht].
  rewrite Hfin in *. cbn [fs cwd_ok].
  repeat split; try done.
  - intros cmd (c & s & rc & Hin). rewrite prologue_trace in Hin.
    inv_elem Hin.
  - intros Hdir. rewrite (Hsame Hdir). by destruct w.
  - unfold result, main_prologue.
    cbv beta iota zeta delta [mbind M_bind mret M_ret print].
    unfold mkdir, os_mkdir, is_dir in *. cbn [fs].
    by destruct (d !! build_dir env) as [[|wr]|].
Qed.

Lemma build_dir_refused (env : Env) (w : World) :
  is_dir (fs w) (build_dir env) = false ->
  ~ (fs w !! build_dir env = None /\
     fs w !! project_root env = Some (Dir true)) ->
  exists e,
    mkdir (build_dir env) true w = (Raised e, w, [EMkdir (build_dir env)]).
Proof.
  intros Hnd Hno. unfold mkdir, os_mkdir. rewrite Hnd. cbn [negb orb].
  destruct (fs w !! build_dir env) as [n|] eqn:Hb; [by eexists|].
  rewrite parent_build_dir.
  destruct (fs w !! project_root env) as [[|[|]]|] eqn:Hr; try by eexists.
  exfalso. by apply Hno.
Qed.

(** C6, as amended: when the build path is already a directory, or is
    absent under a project root that is a writable directory, Step 1
    succeeds and starts no command, the build directory exists in the
    world in which the commands of Steps 2 to 5 then run (so the first
    of them finds its working directory), and a pre-existing build
    directory is left as it is, so that a second run does not fail at
    the creation step.  In every other world (the build path is there
    but is not a directory, or it is absent and the project root is not
    a writable directory) mkdir raises, main ends with that exception,
    the world is left as it was and no command is started. *)
Theorem build_dir_is_ensured (env : Env) (w : World) :
  (is_dir (fs w) (build_dir env) = true \/
   (fs w !! build_dir env = None /\
    fs w !! project_root env = Some (Dir true)) ->
   result (main_prologue env) w = Ok tt /\
   is_dir (fs (final (main_prologue env) w)) (build_dir env) = true /\
   cwd_ok (fs (final (main_prologue env) w)) (Some (build_dir env)) = true /\
   (forall cmd, ~ invoked cmd (trace (main_prologue env) w)) /\
   result (main env) w
   = result (main_commands env) (final (main_prologue env) w) /\
   trace (main env) w
   = (trace (main_prologue env) w
      ++ trace (main_commands env) (final (main_prologue env) w))%list /\
   (is_dir (fs w) (build_dir env) = true -> final (main_prologue env) w = w) /\
   result (main_prologue env) (final (main_prologue env) w) = Ok tt) /\
  (is_dir (fs w) (build_dir env) = false ->
   ~ (fs w !! build_dir env = None /\
      fs w !! project_root env = Some (Dir true)) ->
   (exists e,
      result (main_prologue env) w = Raised e /\
      result (main env) w = Raised e) /\
   final (main env) w = w /\
   List.filter is_run (trace (main env) w) = []).
Proof.
  split; [apply build_dir_created|].
  intros Hnd Hno.
  destruct (build_dir_refused env w Hnd Hno) as [e Hmk].
  assert (Hp : main_prologue env w
               = (Raised e, w,
                  [EPrint ("Project root: "
                           ++ str (sep env) (project_root env));
                   EPrint ("Build directory: "
                           ++ str (sep env) (build_dir env));
                   EPrint (nl ++ "[1/5] Creating build directory...");
                   EMkdir (build_dir env)])).
  { unfold main_prologue.
    cbv beta iota zeta delta [mbind M_bind mret M_ret print].
    by rewrite Hmk. }
  unfold result, final, trace, main.
  cbv beta iota delta [mbind M_bind]. rewrite Hp. cbn [fst snd].
  split; [by exists e|]. by split.
Qed.

Lemma build_dir_is_ensured_witness :
  (result (main_prologue Sample.linux) Sample.w0 = Ok tt /\
   is_dir (fs (final (main_prologue Sample.linux) Sample.w0))
     (build_dir Sample.linux) = true /\
   cwd_ok (fs (final (main_prologue Sample.linux) Sample.w0))
     (Some (build_dir Sample.linux)) = true /\
   (forall cmd,
      ~ invoked cmd (trace (main_prologue Sample.linux) Sample.w0)) /\
   result (main Sample.linux) Sample.w0
   = result (main_commands Sample.linux)
       (final (main_prologue Sample.linux) Sample.w0) /\
   trace (main Sample.linux) Sample.w0
   = (trace (main_prologue Sample.linux) Sample.w0
      ++ trace (main_commands Sample.linux)
           (final (main_prologue Sample.linux) Sample.w0))%list /\
   (is_dir (fs Sample.w0) (build_dir Sample.linux) = true ->
    final (main_prologue Sample.linux) Sample.w0 = Sample.w0) /\
   result (main_prologue Sample.linux)
     (final (main_prologue Sample.linux) Sample.w0) = Ok tt) /\
  ((exists e,
      result (main_prologue Sample.linux) Sample.blocked = Raised e /\
      result (main Sample.linux) Sample.blocked = Raised e) /\
   final (main Sample.linux) Sample.blocked = Sample.blocked /\
   List.filter is_run (trace (main Sample.linux) Sample.blocked) = []).
Proof.
  split.
  - apply (build_dir_is_ensured Sample.linux Sample.w0).
    right. split; vm_compute; reflexivity.
  - apply (build_dir_is_ensured Sample.linux Sample.blocked).
    + vm_compute. reflexivity.
    + intros [Hnone _]. vm_compute in Hnone. discriminate Hnone.
Defined.

(** C6 as stated does not hold: with a regular file where the build
    directory goes, Step 1 raises and the run ends there, before any
    command. *)
Lemma build_dir_creation_can_fail :
  result (main_prologue Sample.linux) Sample.blocked = Raised FileExistsError /\
  result (main Sample.linux) Sample.blocked = Raised FileExistsError /\
  List.filter is_run (trace (main Sample.linux) Sample.blocked) = [].
Proof. vm_compute. done. Qed.

(** ** Where the script works *)

Lemma is_absolute_parent (p : Path) : is_absolute (parent p) = is_absolute p.
Proof. reflexivity. Qed.

Lemma absolute_parent (cwd f : Path) :
  parts f <> [] -> absolute cwd (parent f) = parent (absolute cwd f).
Proof.
  intros Hf. unfold absolute. rewrite is_absolute_parent.
  destruct (is_absolute f) eqn:Ha; [done|].
  unfold joinpath. rewrite is_absolute_parent, Ha.
  unfold parent. cbn [root parts]. by rewrite removelast_app.
Qed.

Lemma name_absolute (cwd f : Path) :
  parts f <> [] -> name (absolute cwd f) = name f.
Proof.
  intros Hf. unfold absolute, joinpath.
  destruct (is_absolute f); [done|].
  unfold name. cbn [parts].
  destruct (exists_last Hf) as (l & x & ->).
  by rewrite app_assoc, !List.last_last.
Qed.

Lemma resolve_step_name (acc : list string) (s : string) :
  s <> ".." -> resolve_step acc s = (acc ++ [s])%list.
Proof.
  intros Hs. unfold resolve_step. apply String.eqb_neq in Hs. by rewrite Hs.
Qed.

Lemma resolve_parent (p : Path) :
  parts p <> [] -> name p <> ".." -> resolve (parent p) = parent (resolve p).
Proof.
  destruct p as [r ps]. unfold name, resolve, parent. cbn [root parts].
  intros Hne Hname.
  destruct (exists_last Hne) as (l & x & ->).
  rewrite List.last_last in Hname. rewrite removelast_last, fold_left_app.
  cbn [fold_left]. by rewrite resolve_step_name, removelast_last.
Qed.

Lemma resolve_segment (p : Path) (s : string) :
  s <> ".." -> resolve (p // s) = resolve p // s.
Proof.
  intros Hs. destruct p as [r ps].
  unfold resolve, joinpath, segment, is_absolute.
  cbn [root parts String.eqb negb]. rewrite fold_left_app.
  cbn [fold_left]. by rewrite resolve_step_name.
Qed.

Lemma project_root_resolved (env : Env) :
  parts (script_file env) <> [] -> name (script_file env) <> ".." ->
  resolve (project_root env)
  = parent (resolve (absolute (getcwd env) (script_file env))).
Proof.
  intros Hne Hname. unfold project_root.
  rewrite absolute_parent by done. apply resolve_parent.
  - unfold absolute, joinpath. destruct (is_absolute (script_file env)); [done|].
    cbn [parts]. intros [_ Heq]%app_eq_nil. done.
  - by rewrite name_absolute.
Qed.

(** C9: the project root is the absolute path of the directory that
    contains the script file, and the build directory is that path
    joined with "build".  With an absolute script path the working
    directory of the caller plays no role; two launches that name the
    same script, as written or after resolving "..", work in the same
    project root and build directory; and every directory a run creates,
    searches or starts a command in is one of the two. *)
Theorem project_root_is_script_directory (env : Env) :
  parts (script_file env) <> [] ->
  project_root env = parent (absolute (getcwd env) (script_file env)) /\
  build_dir env
  = mkPath (root (project_root env)) (parts (project_root env) ++ ["build"]) /\
  (is_absolute (getcwd env) = true -> is_absolute (project_root env) = true) /\
  (is_absolute (script_file env) = true ->
   project_root env = parent (script_file env)) /\
  (forall env',
     parts (script_file env') <> [] ->
     absolute (getcwd env') (script_file env')
     = absolute (getcwd env) (script_file env) ->
     project_root env' = project_root env /\ build_dir env' = build_dir env) /\
  (forall env',
     parts (script_file env') <> [] ->
     name (script_file env) <> ".." -> name (script_file env') <> ".." ->
     resolve (absolute (getcwd env') (script_file env'))
     = resolve (absolute (getcwd env) (script_file env)) ->
     resolve (project_root env') = resolve (project_root env) /\
     resolve (build_dir env') = resolve (build_dir env)) /\
  (forall w e d,
     e ∈ trace (main env) w -> event_dir e = Some d ->
     d = project_root env \/ d = build_dir env).
Proof.
  intros Hne.
  assert (Hroot : forall env0, parts (script_file env0) <> [] ->
            project_root env0
            = parent (absolute (getcwd env0) (script_file env0))).
  { intros env0 H0. unfold project_root. by apply absolute_parent. }
  repeat split.
  - by apply Hroot.
  - unfold project_root, absolute, joinpath, parent, is_absolute.
    cbn [root parts]. intros Hcwd.
    by destruct (negb (root (script_file env) =? "")%string) eqn:Hs.
  - intros Habs. unfold project_root, absolute.
    by rewrite is_absolute_parent, Habs.
  - rewrite !Hroot by done. congruence.
  - unfold build_dir. rewrite !Hroot by done. congruence.
  - rewrite !project_root_resolved by done. congruence.
  - unfold build_dir. rewrite !resolve_segment by done.
    rewrite !project_root_resolved by done. congruence.
  - intros w e d Hin Hd.
    apply (elem_of_kind has_dir) in Hin; [|unfold has_dir; by rewrite Hd].
    run_cases env w.
    all: cbv beta iota delta [List.filter has_dir event_dir] in Hin.
    all: inv_elem Hin.
    all: subst e; cbn [event_dir] in Hd; injection Hd as <-; auto.
Qed.

Lemma project_root_is_script_directory_witness :
  project_root Sample.relative
  = mkPath "/" ["home"; "dev"; "wtree3"; "src"; ".."] /\
  resolve (project_root Sample.relative) = resolve (project_root Sample.linux) /\
  resolve (build_dir Sample.relative) = resolve (build_dir Sample.linux).
Proof.
  assert (Hne : parts (script_file Sample.linux) <> []) by discriminate.
  split; [reflexivity|].
  apply (project_root_is_script_directory Sample.linux Hne).
  - discriminate.
  - discriminate.
  - discriminate.
  - reflexivity.
Defined.

(** ** The exit code and the tests *)

Lemma run_command_retest_other code env cmd cwd w :
  cmd <> test_cmd ->
  run_command (retest code env) cmd cwd w = run_command env cmd cwd w.
Proof.
  intros Hcmd. unfold run_command.
  cbv beta iota zeta delta [mbind M_bind mret M_ret print subprocess_run].
  cbn [spawn retest]. rewrite bool_decide_false by done.
  by destruct (spawn env (clock w) cmd cwd (fs w)).
Qed.

Lemma run_command_retest_test code env cwd w :
  final (run_command (retest code env) test_cmd cwd) w
  = final (run_command env test_cmd cwd) w /\
  match result (run_command (retest code env) test_cmd cwd) w,
        result (run_command env test_cmd cwd) w with
  | Ok _, Ok _ => True
  | Raised e, Raised e' => e = e'
  | _, _ => False
  end.
Proof.
  unfold result, final, run_command.
  cbv beta iota zeta delta [mbind M_bind mret M_ret print subprocess_run].
  cbn [spawn retest]. rewrite bool_decide_true by done.
  destruct cwd as [d|]; [destruct (fs w !! d) as [[|wr]|]; try done|];
    (destruct (spawn env (clock w) test_cmd _ (fs w)) as [rc after|e];
     [by destruct (code =? 0), (rc =? 0) | done]).
Qed.

Lemma result_retest (code : Z) (env : Env) (w : World) :
  result (main (retest code env)) w = result (main env) w.
Proof.
  unfold result, main, main_prologue, main_commands.
  cbv beta iota zeta
    delta [mbind M_bind mret M_ret print rglob subprocess_run_shell].
  change (project_root (retest code env)) with (project_root env).
  change (build_dir (retest code env)) with (build_dir env).
  change (output_file (retest code env)) with (output_file env).
  change (gcovr_cmd (retest code env)) with (gcovr_cmd env).
  change (start_cmd (retest code env)) with (start_cmd env).
  change (sep (retest code env)) with (sep env).
  change (platform (retest code env)) with (platform env).
  change (shell (retest code env)) with (shell env).
  change (caseless (retest code env)) with (caseless env).
  destruct (mkdir_made (build_dir env) w) as [d Hd|e]; [|done].
  cbv beta iota.
  rewrite (run_command_retest_other code env configure_cmd) by done.
  destruct (run_command_ran env configure_cmd (Some (build_dir env))
              {| fs := d; clock := clock w |}) as [e|d1 H1|rc1 d1 Hrc1 H1];
    cbv beta iota delta [negb]; [done| |done].
  rewrite (run_command_retest_other code env build_cmd) by done.
  match goal with
  | |- context [run_command env build_cmd ?c ?w2] =>
      destruct (run_command_ran env build_cmd c w2)
        as [e|d2 H2|rc2 d2 Hrc2 H2]
  end; cbv beta iota delta [negb]; [done| |done].
  match goal with
  | |- context [run_command env test_cmd ?c ?w3] =>
      destruct (run_command_retest_test code env c w3) as [Hfin Hres];
      unfold result, final in Hfin, Hres;
      destruct (run_command (retest code env) test_cmd c w3)
        as [[[t1|e1] w4] tr1];
      destruct (run_command env test_cmd c w3) as [[[t2|e2] w5] tr2]
  end; cbn [fst snd] in Hfin, Hres; try done; [|by subst].
  subst w5. destruct t1, t2; cbv beta iota delta [negb].
  all: destruct (rglob_list (caseless env) (fs w4) (build_dir env)
                  gcda_pattern)
         as [|p found]; [done|].
  all: rewrite (run_command_retest_other code env (gcovr_cmd env)) by done.
  all: destruct (run_command_ran env (gcovr_cmd env)
                   (Some (project_root env)) w4)
         as [e|d3 H3|rc3 d3 Hrc3 H3];
       cbv beta iota delta [negb]; [done| |done].
  all: destruct (String.eqb (platform env) "win32"); [|done].
  all: by destruct (shell env _ _ _ _).
Qed.


Lemma result_decided (env : Env) (w : World) (c : Z) :
  result (main env) w = Ok c ->
  (c = 0 \/ c = 1) /\
  (c = 0 <->
   ERun configure_cmd (Some (build_dir env)) false (Some 0)
     ∈ trace (main env) w /\
   ERun build_cmd (Some (build_dir env)) false (Some 0)
     ∈ trace (main env) w /\
   (exists found, found <> [] /\
      ERglob (build_dir env) gcda_pattern found ∈ trace (main env) w) /\
   ERun (gcovr_cmd env) (Some (project_root env)) false (Some 0)
     ∈ trace (main env) w).
Proof.
  intros Hres.
  run_cases env w; try discriminate Hres; injection Hres as <-.
  all: split; [auto|].
  all: split;
    [ intros Hc; first [ discriminate Hc
                       | repeat split; try in_trace;
                         eexists; split; [|in_trace]; done ]
    | intros (Hconf & Hbuild & (fnd & Hne & Hglob) & Hrep); try reflexivity;
      exfalso; inv_elem Hconf; inv_elem Hbuild; inv_elem Hglob;
      inv_elem Hrep; simplify_eq ].
Qed.

(** C10: a run and the run that differs from it only in the exit code
    of the test step end with the same result; and the exit code of a
    run is 0 or 1, and 0 exactly when configure and build exited with 0,
    the search found a coverage-data file and the report generator
    exited with 0 - whatever the test step returned. *)
Theorem exit_code_ignores_tests (code : Z) (env : Env) (w : World) :
  result (main (retest code env)) w = result (main env) w /\
  forall c,
    result (main env) w = Ok c ->
    (c = 0 \/ c = 1) /\
    (c = 0 <->
     ERun configure_cmd (Some (build_dir env)) false (Some 0)
       ∈ trace (main env) w /\
     ERun build_cmd (Some (build_dir env)) false (Some 0)
       ∈ trace (main env) w /\
     (exists found, found <> [] /\
        ERglob (build_dir env) gcda_pattern found ∈ trace (main env) w) /\
     ERun (gcovr_cmd env) (Some (project_root env)) false (Some 0)
       ∈ trace (main env) w).
Proof.
  split; [apply result_retest | apply result_decided].
Qed.

Lemma exit_code_ignores_tests_witness :
  result (main (retest 8 Sample.linux)) Sample.w0
  = result (main Sample.linux) Sample.w0 /\
  (0 = 0 \/ 0 = 1) /\
  (0 = 0 <->
   ERun configure_cmd (Some (build_dir Sample.linux)) false (Some 0)
     ∈ trace (main Sample.linux) Sample.w0 /\
   ERun build_cmd (Some (build_dir Sample.linux)) false (Some 0)
     ∈ trace (main Sample.linux) Sample.w0 /\
   (exists found, found <> [] /\
      ERglob (build_dir Sample.linux) gcda_pattern found
        ∈ trace (main Sample.linux) Sample.w0) /\
   ERun (gcovr_cmd Sample.linux) (Some (project_root Sample.linux)) false
     (Some 0) ∈ trace (main Sample.linux) Sample.w0).
Proof.
  destruct (exit_code_ignores_tests 8 Sample.linux Sample.w0) as [Hsame Hcode].
  split; [exact Hsame|]. apply Hcode. reflexivity.
Defined.

(** The two runs of C10 do differ: with failing tests the error and the
    warning are printed, and the result is still the one of the run
    with passing tests. *)
Example retest_changes_the_run :
  ERun test_cmd (Some Sample.bdir) false (Some 8)
    ∈ trace (main (retest 8 Sample.linux)) Sample.w0 /\
  ERun test_cmd (Some Sample.bdir) false (Some 0)
    ∈ trace (main Sample.linux) Sample.w0 /\
  result (main (retest 8 Sample.linux)) Sample.w0 = Ok 0.
Proof. vm_compute. repeat split; in_trace. Qed.

(** * Further properties of the script *)

(** Membership [H] of a printed line that begins with [c] in an explicit
    trace: only the lines of the trace that begin with [c] are kept. *)
Ltac inv_line c H :=
  apply (elem_of_kind (line_starts c)) in H; [|reflexivity];
  match type of H with
  | _ ∈ ?l => let l' := eval cbv in l in change l with l' in H
  end;
  repeat first
    [ apply elem_of_nil in H; destruct H
    | apply elem_of_cons in H; destruct H as [H|H] ].

(** ** The order of the steps *)

(** X1: in every run the actions (directory creation, commands, search)
    are an initial part of the plan of the source, in its order and with
    its working directories: no step is skipped, repeated or taken out
    of turn. *)
Theorem steps_in_source_order (env : Env) (w : World) :
  map shape (List.filter is_action (trace (main env) w)) `prefix_of` plan env.
Proof.
  run_cases env w.
  all: cbv beta iota delta [List.filter is_action map shape plan].
  all: by eexists.
Qed.

(** ** What the console tells *)

(** X2: whenever main returns 1, the last thing the run did was to
    print an error line: the one of run_command with a non-zero code,
    or the one about missing coverage data. *)
Theorem failure_is_announced (env : Env) (w : World) :
  result (main env) w = Ok 1 ->
  last (trace (main env) w)
  = Some (EPrint
      "ERROR: No coverage data found. Make sure tests ran successfully.") \/
  exists rc, rc <> 0 /\
    last (trace (main env) w)
    = Some (EPrint ("ERROR: Command failed with code " ++ pretty rc)).
Proof.
  intros Hres.
  run_cases env w; try discriminate Hres.
  all: first [ by left | right; eexists; split; [eassumption|reflexivity] ].
Qed.

Lemma failure_is_announced_witness :
  last (trace (main Sample.bad_build) Sample.w0)
  = Some (EPrint
      "ERROR: No coverage data found. Make sure tests ran successfully.") \/
  exists rc, rc <> 0 /\
    last (trace (main Sample.bad_build) Sample.w0)
    = Some (EPrint ("ERROR: Command failed with code " ++ pretty rc)).
Proof.
  apply (failure_is_announced Sample.bad_build Sample.w0). reflexivity.
Defined.

(** X3: the success line is printed exactly in the runs in which main
    returns 0. *)
Theorem success_line_iff_zero (env : Env) (w : World) :
  EPrint "SUCCESS! Coverage report generated:" ∈ trace (main env) w <->
  result (main env) w = Ok 0.
Proof.
  split; intros H.
  - run_cases env w; inv_line "S"%char H; done.
  - run_cases env w; try discriminate H; in_trace.
Qed.

(** X4: the warning about failed tests is printed exactly in the runs
    in which the test command exited with a non-zero code. *)
Theorem warning_iff_tests_failed (env : Env) (w : World) :
  EPrint "WARNING: Some tests failed, but continuing with coverage..."
    ∈ trace (main env) w <->
  exists rc, rc <> 0 /\
    ERun test_cmd (Some (build_dir env)) false (Some rc) ∈ trace (main env) w.
Proof.
  split.
  - intros H. run_cases env w; inv_line "W"%char H.
    all: eexists; split; [|in_trace]; assumption.
  - intros (code & Hcode & H).
    run_cases env w; inv_elem H; in_trace.
Qed.

(** ** The fatal report step *)

(** X5: in every run in which the report generator exits with a
    non-zero code, main returns 1, the success line is not printed and
    nothing is handed to the shell. *)
Theorem report_failure_aborts
  (env : Env) (w : World) (cwd : option Path) (sh : bool) (rc : Z) :
  rc <> 0 ->
  ERun (gcovr_cmd env) cwd sh (Some rc) ∈ trace (main env) w ->
  result (main env) w = Ok 1 /\
  (EPrint "SUCCESS! Coverage report generated:" ∉ trace (main env) w) /\
  forall cmd cwd' rc', ERun cmd cwd' true rc' ∉ trace (main env) w.
Proof.
  intros Hrc Hev.
  run_cases env w; inv_elem Hev.
  all: split; [done|]; split.
  all: first [ intros Hin; inv_line "S"%char Hin; done
             | intros ? ? ? Hin; inv_elem Hin ].
Qed.

Lemma report_failure_aborts_witness :
  result (main Cases.bad_report) Sample.w0 = Ok 1 /\
  (EPrint "SUCCESS! Coverage report generated:"
     ∉ trace (main Cases.bad_report) Sample.w0) /\
  forall cmd cwd' rc',
    ERun cmd cwd' true rc' ∉ trace (main Cases.bad_report) Sample.w0.
Proof.
  apply (report_failure_aborts Cases.bad_report Sample.w0
           (Some Sample.root_dir) false 3); [lia|].
  vm_compute. in_trace.
Defined.

(** ** Commands that cannot be started *)

(** X6: a command that could not be started (or whose working directory
    is missing) is the last thing a run does, and the run ends with the
    exception; conversely a run that ends with an exception ends at the
    creation of the build directory or at such a command. *)
Theorem unstartable_command_ends_run (env : Env) (w : World) :
  (forall cmd cwd sh,
     ERun cmd cwd sh None ∈ trace (main env) w ->
     (exists e, result (main env) w = Raised e) /\
     last (trace (main env) w) = Some (ERun cmd cwd sh None)) /\
  (forall e,
     result (main env) w = Raised e ->
     last (trace (main env) w) = Some (EMkdir (build_dir env)) \/
     exists cmd cwd, last (trace (main env) w) = Some (ERun cmd cwd false None)).
Proof.
  split.
  - intros ? ? ? Hin. run_cases env w; inv_elem Hin.
    all: injection Hin as -> -> ->.
    all: split; [by eexists | reflexivity].
  - intros ? Hres. run_cases env w; try discriminate Hres.
    all: first [ by left | right; by eexists _, _ ].
Qed.

Lemma unstartable_command_ends_run_witness :
  (exists e, result (main Sample.bare) Sample.w0 = Raised e) /\
  last (trace (main Sample.bare) Sample.w0)
  = Some (ERun configure_cmd (Some Sample.bdir) false None).
Proof.
  apply (unstartable_command_ends_run Sample.bare Sample.w0).
  vm_compute. in_trace.
Defined.

(** X7: the line that reports the search gives the number of entries
    the search found. *)
Theorem found_line_counts
  (env : Env) (w : World) (d : Path) (pat : string) (found : list Path) :
  ERglob d pat found ∈ trace (main env) w ->
  EPrint ("Found " ++ pretty (length found) ++ " coverage data files")
    ∈ trace (main env) w.
Proof.
  intros Hin. run_cases env w; inv_elem Hin.
  all: injection Hin as -> -> ->; in_trace.
Qed.

Lemma found_line_counts_witness :
  EPrint "Found 2 coverage data files" ∈ trace (main Cases.busy) Sample.w0.
Proof.
  apply (found_line_counts Cases.busy Sample.w0 Sample.bdir gcda_pattern
           [Sample.bdir // "old.gcda"; Sample.bdir // "a.gcda"]).
  vm_compute. in_trace.
Defined.

(** ** The status of the process *)

(** X10: the status with which the script ends is 0 or 1 in every run,
    also in those that end with an exception, and it is 0 exactly when
    the report generator was run and exited with 0. *)
Theorem script_status (env : Env) (w : World) :
  (script env w = 0 \/ script env w = 1) /\
  (script env w = 0 <->
   ERun (gcovr_cmd env) (Some (project_root env)) false (Some 0)
     ∈ trace (main env) w).
Proof.
  unfold script.
  run_cases env w.
  all: split; [auto|].
  all: split; [ intros Hc; first [ discriminate Hc | in_trace ]
              | intros Hin; first [ reflexivity | exfalso; inv_elem Hin ] ].
Qed.

(** ** One call of run_command *)

(** X11: every call of run_command prints the three banner lines, then
    starts exactly one child, also when the child cannot be started;
    whatever follows in its trace is printed lines. *)
Theorem run_command_starts_one_process
  (env : Env) (cmd : list string) (cwd : option Path) (w : World) :
  clock (final (run_command env cmd cwd) w) = S (clock w) /\
  exists rc rest,
    trace (run_command env cmd cwd) w
    = (banner cmd ++ ERun cmd cwd false rc :: rest)%list /\
    List.filter is_action rest = [].
Proof.
  unfold final, trace.
  destruct (run_command_ran env cmd cwd w); cbn [fst snd clock tick].
  all: split; [reflexivity|]; by eexists _, _.
Qed.

(** ** What the script writes *)

Lemma keeps_ret {A} (a : A) : keeps_fs (mret a).
Proof. by intros w. Qed.

Lemma keeps_print (line : string) : keeps_fs (print line).
Proof. by intros w. Qed.

Lemma keeps_rglob (c : bool) (d : Path) (pat : string) :
  keeps_fs (rglob c d pat).
Proof. by intros w. Qed.

Lemma keeps_bind {A B} (m : M A) (f : A -> M B) :
  keeps_fs m -> (forall a, keeps_fs (f a)) -> keeps_fs (m ≫= f).
Proof.
  intros Hm Hf w. specialize (Hm w). unfold final in *.
  cbv beta iota delta [mbind M_bind].
  destruct (m w) as [[[a|e] w1] t1]; cbn [fst snd] in *; [|done].
  specialize (Hf a w1). unfold final in Hf.
  destruct (f a w1) as [[r w2] t2]; cbn [fst snd] in *. congruence.
Qed.

Lemma keeps_run_command env cmd cwd :
  inert env -> keeps_fs (run_command env cmd cwd).
Proof.
  intros [Hspawn _] w. unfold final.
  destruct (run_command_ran env cmd cwd w) as [e|d Hd|rc d Hrc Hd];
    cbn [fst snd fs tick]; [done| |]; by apply Hspawn in Hd.
Qed.

Lemma keeps_shell env cmd :
  inert env -> keeps_fs (subprocess_run_shell env cmd).
Proof.
  intros [_ Hshell] w. unfold final, subprocess_run_shell.
  specialize (Hshell (clock w) cmd None (fs w)).
  by destruct (shell env (clock w) cmd None (fs w)).
Qed.

Lemma keeps_main_commands env : inert env -> keeps_fs (main_commands env).
Proof.
  intros Hinert. unfold main_commands.
  repeat first
    [ apply keeps_print
    | apply keeps_ret
    | apply keeps_rglob
    | by apply keeps_run_command
    | by apply keeps_shell
    | apply keeps_bind; [|intros ?]
    | match goal with
      | |- keeps_fs (if ?b then _ else _) => destruct b
      | |- keeps_fs (match ?l with [] => _ | _ :: _ => _ end) => destruct l
      end ].
Qed.

Lemma prologue_fs (env : Env) (w : World) :
  (result (main_prologue env) w = Ok tt \/
   exists e, result (main_prologue env) w = Raised e) /\
  (fs (final (main_prologue env) w) = fs w \/
   (fs w !! build_dir env = None /\
    fs (final (main_prologue env) w) = <[build_dir env := Dir true]> (fs w))).
Proof.
  unfold result, final, main_prologue.
  cbv beta iota zeta delta [mbind M_bind mret M_ret print].
  unfold mkdir, os_mkdir.
  destruct (fs w !! build_dir env) as [[|wr]|] eqn:Hb; cbn [negb orb].
  - unfold is_dir. rewrite Hb. cbn. eauto.
  - unfold is_dir. rewrite Hb. cbn. eauto.
  - destruct (fs w !! parent (build_dir env)) as [[|[|]]|];
      unfold is_dir; rewrite ?Hb; cbn; eauto.
Qed.

(** X8: with tools that leave the filesystem alone, the only thing a
    run changes in it is the build directory, created when it was not
    there: the script itself writes and deletes nothing else. *)
Theorem script_only_creates_build_dir (env : Env) (w : World) :
  inert env ->
  fs (final (main env) w) = fs w \/
  (fs w !! build_dir env = None /\
   fs (final (main env) w) = <[build_dir env := Dir true]> (fs w)).
Proof.
  intros Hinert.
  destruct (prologue_fs env w) as [Hres Hfs].
  pose proof (keeps_main_commands env Hinert (final (main_prologue env) w))
    as Hkeep.
  unfold result, final, main in *.
  cbv beta iota delta [mbind M_bind].
  destruct (main_prologue env w) as [[[[]|e] w1] t1]; cbn [fst snd] in *;
    [|done].
  destruct (main_commands env w1) as [[r w2] t2]; cbn [fst snd] in *.
  by rewrite Hkeep.
Qed.

Lemma script_only_creates_build_dir_witness :
  fs (final (main Sample.no_data) Sample.w0) = fs Sample.w0 \/
  (fs Sample.w0 !! build_dir Sample.no_data = None /\
   fs (final (main Sample.no_data) Sample.w0)
   = <[build_dir Sample.no_data := Dir true]> (fs Sample.w0)).
Proof.
  apply (script_only_creates_build_dir Sample.no_data Sample.w0).
  split.
  - intros i cmd cwd d rc d' H. by injection H.
  - reflexivity.
Defined.

(** ** What the search finds *)

Lemma wildcard_literal (p s : list ascii) :
  (forall c, In c p -> c <> "*"%char /\ c <> "?"%char) ->
  wildcard p s = true <-> s = p.
Proof.
  revert s. induction p as [|c p IH]; intros s Hlit.
  - destruct s; cbn; split; congruence.
  - destruct (Hlit c (or_introl eq_refl)) as [Hstar Hany].
    apply Ascii.eqb_neq in Hstar, Hany.
    cbn [wildcard]. rewrite Hstar, Hany. cbn [orb].
    destruct s as [|d s]; [split; congruence|].
    rewrite andb_true_iff, Ascii.eqb_eq, IH
      by (intros c' Hc'; apply Hlit; by right).
    split; [intros [-> ->]; reflexivity | intros [= -> ->]; by split].
Qed.

Lemma wildcard_star (p s : list ascii) :
  wildcard ("*"%char :: p) s = true <->
  exists s1 s2, s = (s1 ++ s2)%list /\ wildcard p s2 = true.
Proof.
  induction s as [|a s IH].
  - cbn. rewrite orb_false_r. split.
    + intros H. by exists [], [].
    + intros (s1 & s2 & Hs & H). symmetry in Hs.
      apply app_eq_nil in Hs as [-> ->]. done.
  - change (wildcard ("*"%char :: p) (a :: s))
      with (wildcard p (a :: s) || wildcard ("*"%char :: p) s).
    rewrite orb_true_iff, IH. split.
    + intros [H|(s1 & s2 & -> & H)].
      * by exists [], (a :: s).
      * by exists (a :: s1), s2.
    + intros (s1 & s2 & Hs & H). destruct s1 as [|b s1].
      * left. cbn in Hs. by subst s2.
      * right. injection Hs as -> ->. by exists s1, s2.
Qed.

Lemma string_of_list_ascii_app (a b : list ascii) :
  string_of_list_ascii (a ++ b)
  = string_of_list_ascii a ++ string_of_list_ascii b.
Proof.
  induction a as [|c a IH]; [done|].
  change (string_of_list_ascii ((c :: a) ++ b))
    with (String c (string_of_list_ascii (a ++ b))).
  by rewrite IH.
Qed.

Lemma list_ascii_of_string_app (a b : string) :
  list_ascii_of_string (a ++ b)
  = (list_ascii_of_string a ++ list_ascii_of_string b)%list.
Proof.
  induction a as [|c a IH]; [done|].
  change (list_ascii_of_string (String c a ++ b))
    with (c :: list_ascii_of_string (a ++ b)).
  by rewrite IH.
Qed.

Lemma gcda_pattern_matches (c : bool) (nm : string) :
  fnmatch c nm gcda_pattern = true <->
  exists stem ext,
    nm = stem ++ ext /\ (if c then str_lower ext else ext) = ".gcda".
Proof.
  assert (Hlit : forall x, In x (list_ascii_of_string ".gcda") ->
                   x <> "*"%char /\ x <> "?"%char).
  { cbn. intros x Hx. split; intros ->; intuition discriminate. }
  unfold fnmatch, gcda_pattern. destruct c.
  - change (map lower (list_ascii_of_string "*.gcda"))
      with ("*"%char :: list_ascii_of_string ".gcda").
    rewrite wildcard_star. split.
    + intros (s1 & s2 & Hs & H).
      apply wildcard_literal in H; [|done].
      apply List.map_eq_app in Hs as (l1 & l2 & Hl & H1 & H2).
      exists (string_of_list_ascii l1), (string_of_list_ascii l2). split.
      * by rewrite <- (string_of_list_ascii_of_string nm), Hl,
          string_of_list_ascii_app.
      * unfold str_lower.
        by rewrite list_ascii_of_string_of_list_ascii, H2, H.
    + intros (stem & ext & -> & Hext).
      exists (map lower (list_ascii_of_string stem)),
             (map lower (list_ascii_of_string ext)).
      split; [by rewrite list_ascii_of_string_app, map_app|].
      apply wildcard_literal; [done|].
      rewrite <- (list_ascii_of_string_of_list_ascii
                    (map lower (list_ascii_of_string ext))).
      fold (str_lower ext). by rewrite Hext.
  - change (list_ascii_of_string "*.gcda")
      with ("*"%char :: list_ascii_of_string ".gcda").
    rewrite wildcard_star. split.
    + intros (s1 & s2 & Hs & H).
      apply wildcard_literal in H; [|done].
      exists (string_of_list_ascii s1), ".gcda". split; [|done].
      rewrite <- (string_of_list_ascii_of_string nm), Hs, H.
      by rewrite string_of_list_ascii_app.
    + intros (stem & ext & -> & ->).
      exists (list_ascii_of_string stem), (list_ascii_of_string ".gcda").
      split; [apply list_ascii_of_string_app | reflexivity].
Qed.

Lemma strip_prefix_app (l k rel : list string) :
  strip_prefix l k = Some rel -> k = (l ++ rel)%list.
Proof.
  revert k. induction l as [|x l IH]; intros k H.
  - cbn in *. congruence.
  - destruct k as [|y k]; cbn in H; [done|].
    destruct (String.eqb_spec x y) as [->|]; [|done].
    cbn. f_equal. by apply IH.
Qed.

Lemma rglob_list_sound (c : bool) (d : FS) (p q : Path) (pat : string) :
  q ∈ rglob_list c d p pat ->
  is_Some (d !! q) /\ is_dir d p = true /\
  fnmatch c (name q) pat = true /\
  root q = root p /\
  exists rel, rel <> [] /\ parts q = (parts p ++ rel)%list.
Proof.
  unfold rglob_list. rewrite list_elem_of_In, filter_In, in_map_iff.
  intros [([q' n] & Hq & Hin) Hf]. cbn in Hq. subst q'.
  apply list_elem_of_In, elem_of_map_to_list in Hin.
  unfold relative_to in Hf.
  destruct (String.eqb_spec (root p) (root q)) as [Hroot|]; [|done].
  destruct (strip_prefix (parts p) (parts q)) as [rel|] eqn:Hrel; [|done].
  apply andb_true_iff in Hf as [Hreach Hmatch].
  apply strip_prefix_app in Hrel.
  split; [by eexists|].
  destruct rel as [|s rel]; [done|].
  cbn [reaches] in Hreach. apply andb_true_iff in Hreach as [Hdir _].
  repeat split; try done. by exists (s :: rel).
Qed.

(** X9: every entry the search of a run reports lies strictly below the
    build directory and has a name that ends in ".gcda"; on win32,
    where pathlib matches names without regard to case, the ending is
    ".gcda" up to the case of its letters. *)
Theorem found_entries_are_coverage_data
  (env : Env) (w : World) (d : Path) (pat : string) (found : list Path)
  (q : Path) :
  ERglob d pat found ∈ trace (main env) w ->
  q ∈ found ->
  root q = root (build_dir env) /\
  (exists rel, rel <> [] /\ parts q = (parts (build_dir env) ++ rel)%list) /\
  exists stem ext,
    name q = stem ++ ext /\
    (if caseless env then str_lower ext else ext) = ".gcda".
Proof.
  intros Hin Hq.
  run_cases env w; inv_elem Hin.
  all: injection Hin as -> -> ->.
  all: try by apply elem_of_nil in Hq.
  all: match goal with
       | Heq : rglob_list _ _ _ _ = _ |- _ => rewrite <- Heq in Hq
       end.
  all: apply rglob_list_sound in Hq as (_ & _ & Hm & Hroot & Hrel).
  all: apply gcda_pattern_matches in Hm; done.
Qed.

Lemma found_entries_are_coverage_data_witness :
  root (Sample.bdir // "X.GCDA") = root (build_dir Cases.windows_upper) /\
  (exists rel, rel <> [] /\
     parts (Sample.bdir // "X.GCDA")
     = (parts (build_dir Cases.windows_upper) ++ rel)%list) /\
  exists stem ext,
    name (Sample.bdir // "X.GCDA") = stem ++ ext /\
    (if caseless Cases.windows_upper then str_lower ext else ext) = ".gcda".
Proof.
  apply (found_entries_are_coverage_data Cases.windows_upper Sample.w0
           Sample.bdir gcda_pattern [Sample.bdir // "X.GCDA"]).
  - vm_compute. in_trace.
  - apply list_elem_of_here.
Defined.

(** The same upper-case file is found on win32 and is not found where
    names are matched as written. *)
Example upper_case_data_file :
  result (main Cases.windows_upper) Sample.w0 = Ok 0 /\
  result (main Cases.linux_upper) Sample.w0 = Ok 1.
Proof. vm_compute. done. Qed.

(** ** The paths as text *)

Lemma append_assoc (a b c : string) : (a ++ b) ++ c = a ++ b ++ c.
Proof.
  induction a as [|x a IH]; [done|].
  change ((String x a ++ b) ++ c) with (String x ((a ++ b) ++ c)).
  by rewrite IH.
Qed.

Lemma concat_snoc (sp : string) (l : list string) (s : string) :
  l <> [] ->
  String.concat sp (l ++ [s]) = String.concat sp l ++ sp ++ s.
Proof.
  induction l as [|x l IH]; [done|]. intros _.
  destruct l as [|y l]; [reflexivity|].
  change (String.concat sp ((x :: y :: l) ++ [s]))
    with (x ++ sp ++ String.concat sp ((y :: l) ++ [s])).
  rewrite IH by done.
  change (String.concat sp (x :: y :: l))
    with (x ++ sp ++ String.concat sp (y :: l)).
  by rewrite !append_assoc.
Qed.

Lemma str_segment (sp : string) (p : Path) (s : string) :
  str sp (p // s)
  = match parts p with
    | [] => root p ++ s
    | _ :: _ => str sp p ++ sp ++ s
    end.
Proof.
  destruct p as [r [|x l]]; unfold str, joinpath, segment, is_absolute;
    cbn [root parts String.eqb negb app]; [reflexivity|].
  change (x :: (l ++ [s])%list) with ((x :: l) ++ [s])%list.
  rewrite concat_snoc by done.
  destruct (l ++ [s])%list eqn:Hl; [by destruct l|].
  by rewrite append_assoc.
Qed.

(** X12: as text, the report path is the build directory, the separator
    and "coverage.html"; the build directory is the project root, the
    separator and "build" - except under a bare root, where no separator
    is added. *)
Theorem paths_as_text (env : Env) :
  str (sep env) (output_file env)
  = str (sep env) (build_dir env) ++ sep env ++ "coverage.html" /\
  (parts (project_root env) <> [] ->
   str (sep env) (build_dir env)
   = str (sep env) (project_root env) ++ sep env ++ "build") /\
  (parts (project_root env) = [] ->
   str (sep env) (build_dir env) = root (project_root env) ++ "build").
Proof.
  unfold output_file, build_dir. rewrite !str_segment.
  destruct (parts (project_root env)) as [|x l] eqn:Hp.
  - unfold joinpath, segment, is_absolute.
    cbn [root parts String.eqb negb]. rewrite Hp. by cbn.
  - unfold joinpath at 1, segment, is_absolute.
    cbn [root parts String.eqb negb]. rewrite Hp. by cbn.
Qed.

Lemma paths_as_text_witness :
  str (sep Sample.linux) (build_dir Sample.linux)
  = str (sep Sample.linux) (project_root Sample.linux)
    ++ sep Sample.linux ++ "build".
Proof.
  apply (paths_as_text Sample.linux). discriminate.
Defined.
